(** * verification/verify_notes_load.py

    A shallow embedding of the Playwright smoke script of the Pinn
    repository and the properties its specification states about it.

    The script is a straight line of calls into Playwright, [time] and
    [print].  Every one of those calls is an interaction with the outside
    world: it may return a value or raise.  The embedding therefore runs the
    script against a [World], a record that answers each call with an
    [outcome], and logs every call that is made, in order, in a trace of
    [action]s.  An uncaught exception is the [Raise] outcome of a run. *)

From Stdlib Require Import List String ZArith Bool.
From Stdlib.Strings Require Import Byte.
Import ListNotations.
Local Open Scope string_scope.
Local Open Scope list_scope.

(** ** Values *)

(** A Python exception: the name of its class and its [__context__], the
    exception that was being handled when this one was raised. *)
Inductive exn :=
| Exn (name : string)                       (* raised with nothing pending *)
| ExnIn (name : string) (context : exn).    (* raised while handling [context] *)

(** Implicit chaining: [e2] is raised while [e1] is being handled, so [e1]
    ends up at the far end of the context chain of [e2]. *)
Fixpoint with_context (e2 e1 : exn) : exn :=
  match e2 with
  | Exn name => ExnIn name e1
  | ExnIn name c => ExnIn name (with_context c e1)
  end.

(** [carries e' e]: [e] is [e'] or lies on the context chain of [e'], which
    is to say that the traceback of [e'] shows [e]. *)
Inductive carries : exn -> exn -> Prop :=
| carries_self e : carries e e
| carries_context name c e : carries c e -> carries (ExnIn name c) e.

(** What a call does: it returns a value or it raises. *)
Inductive outcome (A : Type) : Type :=
| Ret (a : A)
| Raise (e : exn).
Arguments Ret {A} a.
Arguments Raise {A} e.

Definition returned {A} (o : outcome A) : bool :=
  match o with Ret _ => true | Raise _ => false end.

(** Handles of the objects Playwright hands out. *)
Definition playwright := nat.
Definition browser := nat.
Definition page := nat.
Definition response := nat.
Definition bytes := list byte.

(** [p.chromium], [p.firefox], [p.webkit]. *)
Inductive browser_type := chromium | firefox | webkit.

(** A locator is a lazy description of an element; building one does not
    talk to the browser.  [page.get_by_text(s)] is the only one used. *)
Inductive locator := ByText (text : string).

Definition get_by_text (text : string) : locator := ByText text.

(** ** Calls and worlds *)

(** The calls the script makes, with their arguments. *)
Inductive action :=
| Enter                                            (* sync_playwright().__enter__() *)
| Launch (p : playwright) (t : browser_type) (headless : bool)
| NewPage (b : browser)
| Goto (pg : page) (url : string)
| Sleep (secs : Z)
| Screenshot (pg : page) (path : string)
| IsVisible (pg : page) (l : locator)
| PrintLine (msg : string)
| Close (b : browser)
| Exit (p : playwright).                           (* the manager's __exit__ *)

Definition trace := list action.

(** The outside world of one run: its answer to each call.  No call site of
    the script is run twice, so one answer per call and arguments says all
    there is to say about a run. *)
Record World := {
  enter_out      : outcome playwright;
  launch_out     : playwright -> browser_type -> bool -> outcome browser;
  new_page_out   : browser -> outcome page;
  goto_out       : page -> string -> outcome (option response);
  sleep_out      : Z -> outcome unit;
  screenshot_out : page -> string -> outcome bytes;
  is_visible_out : page -> locator -> outcome bool;
  print_out      : string -> outcome unit;
  close_out      : browser -> outcome unit;
  exit_out       : playwright -> outcome unit
}.

(** ** The monad of scripts

    A computation reads the world, extends the trace and ends in an
    outcome.  The trace survives an exception: what was done stays done. *)
Definition M (A : Type) : Type := World -> trace -> trace * outcome A.

Definition ret {A} (a : A) : M A := fun _ t => (t, Ret a).

Definition bind {A B} (m : M A) (k : A -> M B) : M B :=
  fun w t =>
    match m w t with
    | (t', Ret a) => k a w t'
    | (t', Raise e) => (t', Raise e)
    end.

(** Make the call [a]; the world's answer is selected by [ans]. *)
Definition perform {A} (a : action) (ans : World -> outcome A) : M A :=
  fun w t => ((t ++ [a]), ans w).

(** What leaves a [try ... finally]: [r] is the outcome of the body, [f]
    that of the [finally] suite.  When the suite returns, the outcome of
    the body stands (a pending exception is raised again); when it raises,
    its own exception replaces that outcome, with the pending exception,
    if there is one, as its context. *)
Definition after_finally {A} (r : outcome A) (f : outcome unit) : outcome A :=
  match f with
  | Ret _ => r
  | Raise e2 =>
      Raise (match r with
             | Ret _ => e2
             | Raise e1 => with_context e2 e1
             end)
  end.

(** [try: body finally: fin].  The [finally] suite always runs. *)
Definition try_finally {A} (body : M A) (fin : M unit) : M A :=
  fun w t =>
    let (t1, r) := body w t in
    let (t2, f) := fin w t1 in
    (t2, after_finally r f).

(** [with mgr as x: body], for a manager whose [__exit__] returns [None]
    (Playwright's does), so that an exception of the body is never
    swallowed.  [__exit__] runs whenever [__enter__] has returned. *)
Definition with_ {A B} (enter : M A) (exit : A -> M unit) (body : A -> M B) : M B :=
  bind enter (fun x => try_finally (body x) (exit x)).

Declare Scope script_scope.
Delimit Scope script_scope with script.
Notation "x <- m ;; k" := (bind m (fun x => k))
  (at level 61, m at next level, right associativity) : script_scope.
Notation "m ;; k" := (bind m (fun _ => k))
  (at level 61, right associativity) : script_scope.
Local Open Scope script_scope.

(** ** The library calls *)

Definition sync_playwright_enter : M playwright := perform Enter enter_out.
Definition sync_playwright_exit (p : playwright) : M unit :=
  perform (Exit p) (fun w => exit_out w p).
Definition launch (p : playwright) (t : browser_type) (headless : bool) : M browser :=
  perform (Launch p t headless) (fun w => launch_out w p t headless).
Definition new_page (b : browser) : M page :=
  perform (NewPage b) (fun w => new_page_out w b).
Definition goto (pg : page) (url : string) : M (option response) :=
  perform (Goto pg url) (fun w => goto_out w pg url).
Definition sleep (secs : Z) : M unit :=
  perform (Sleep secs) (fun w => sleep_out w secs).
Definition screenshot (pg : page) (path : string) : M bytes :=
  perform (Screenshot pg path) (fun w => screenshot_out w pg path).
Definition is_visible (pg : page) (l : locator) : M bool :=
  perform (IsVisible pg l) (fun w => is_visible_out w pg l).
Definition print (msg : string) : M unit :=
  perform (PrintLine msg) (fun w => print_out w msg).
Definition close (b : browser) : M unit :=
  perform (Close b) (fun w => close_out w b).

(** ** The script *)

Definition app_url : string := "http://localhost:5173".
Definition screenshot_path : string := "/home/jules/verification/initial_load.png".
Definition welcome_text : string := "Welcome to Pinn".
Definition msg_onboarding : string := "Onboarding visible".
Definition msg_not_onboarding : string := "Not on onboarding?".

(** [def verify_notes_load(page)] *)
Definition verify_notes_load (pg : page) : M unit :=
  goto pg app_url ;;
  sleep 2 ;;
  screenshot pg screenshot_path ;;
  v <- is_visible pg (get_by_text welcome_text) ;;
  if v then print msg_onboarding
  else print msg_not_onboarding.

(** The suite under [if __name__ == "__main__":]. *)
Definition main : M unit :=
  with_ sync_playwright_enter sync_playwright_exit (fun p =>
    b <- launch p chromium true ;;
    pg <- new_page b ;;
    try_finally (verify_notes_load pg) (close b)).

(** A run starts from the empty trace. *)
Definition run {A} (m : M A) (w : World) : trace * outcome A := m w [].
Definition actions {A} (m : M A) (w : World) : trace := fst (run m w).
Definition result {A} (m : M A) (w : World) : outcome A := snd (run m w).

(** ** What a run leaves behind *)

(** The world's answer to an action of the trace: did the call return? *)
Definition answered (w : World) (a : action) : bool :=
  match a with
  | Enter => returned (enter_out w)
  | Launch p t headless => returned (launch_out w p t headless)
  | NewPage b => returned (new_page_out w b)
  | Goto pg url => returned (goto_out w pg url)
  | Sleep secs => returned (sleep_out w secs)
  | Screenshot pg path => returned (screenshot_out w pg path)
  | IsVisible pg l => returned (is_visible_out w pg l)
  | PrintLine msg => returned (print_out w msg)
  | Close b => returned (close_out w b)
  | Exit p => returned (exit_out w p)
  end.

(** The messages handed to [print], in order. *)
Fixpoint printed (t : trace) : list string :=
  match t with
  | [] => []
  | PrintLine msg :: t' => msg :: printed t'
  | _ :: t' => printed t'
  end.

(** The paths handed to [page.screenshot], in order. *)
Fixpoint screenshot_calls (t : trace) : list string :=
  match t with
  | [] => []
  | Screenshot _ path :: t' => path :: screenshot_calls t'
  | _ :: t' => screenshot_calls t'
  end.

(** The files written: [page.screenshot(path=...)] is the only call of the
    script that writes one, and it has written it when it returns. *)
Fixpoint files_written (w : World) (t : trace) : list string :=
  match t with
  | [] => []
  | Screenshot pg path :: t' =>
      if returned (screenshot_out w pg path)
      then path :: files_written w t'
      else files_written w t'
  | _ :: t' => files_written w t'
  end.

(** The browsers handed to [browser.close()], in order. *)
Fixpoint closed (t : trace) : list browser :=
  match t with
  | [] => []
  | Close b :: t' => b :: closed t'
  | _ :: t' => closed t'
  end.

(** The run gets as far as the visibility check: navigation, the wait and
    the screenshot have returned. *)
Definition reaches_check (w : World) (pg : page) : bool :=
  returned (goto_out w pg app_url)
  && returned (sleep_out w 2)
  && returned (screenshot_out w pg screenshot_path).

(** One of the four steps before the [if] raises [e], the ones before it
    having returned. *)
Inductive step_raises (w : World) (pg : page) (e : exn) : Prop :=
| raises_in_goto :
    goto_out w pg app_url = Raise e ->
    step_raises w pg e
| raises_in_sleep :
    returned (goto_out w pg app_url) = true ->
    sleep_out w 2 = Raise e ->
    step_raises w pg e
| raises_in_screenshot :
    returned (goto_out w pg app_url) = true ->
    returned (sleep_out w 2) = true ->
    screenshot_out w pg screenshot_path = Raise e ->
    step_raises w pg e
| raises_in_is_visible :
    reaches_check w pg = true ->
    is_visible_out w pg (get_by_text welcome_text) = Raise e ->
    step_raises w pg e.

(** ** The application under test *)

(** Modelled from the spec: the Pinn web application served at
    [http://localhost:5173], which is not part of the script.  The spec
    says of it that its configuration lives in a client-side storage key,
    that the onboarding screen is shown before that key has been set, and
    that a fresh browsing context has empty client-side storage.  The name
    of the key is not given; it is a parameter. *)
Definition local_storage := list (string * string).

Definition fresh_context : local_storage := [].

Definition has_key (key : string) (store : local_storage) : bool :=
  existsb (fun kv => String.eqb key (fst kv)) store.

Definition onboarding_shown (key : string) (store : local_storage) : bool :=
  negb (has_key key store).

(** Modelled from the spec: the page [pg] of the world [w] shows the
    application with the storage [store]; the welcome text is visible
    exactly when the onboarding screen is shown. *)
Definition serves_app (key : string) (store : local_storage) (w : World) (pg : page) : Prop :=
  is_visible_out w pg (get_by_text welcome_text) = Ret (onboarding_shown key store).

(** ** Sample worlds *)

(** The first bytes of a PNG file. *)
Definition png_magic : bytes := [x89; x50; x4e; x47].

(** Everything works; the onboarding text is visible exactly when
    [visible] says so. *)
Definition world_up (visible : bool) : World := {|
  enter_out := Ret 1%nat;
  launch_out := fun _ _ _ => Ret 2%nat;
  new_page_out := fun _ => Ret 3%nat;
  goto_out := fun _ _ => Ret (Some 200%nat);
  sleep_out := fun _ => Ret tt;
  screenshot_out := fun _ _ => Ret png_magic;
  is_visible_out := fun _ _ => Ret visible;
  print_out := fun _ => Ret tt;
  close_out := fun _ => Ret tt;
  exit_out := fun _ => Ret tt
|}.

(** Nothing listens on port 5173: navigation raises. *)
Definition world_server_down : World := {|
  enter_out := Ret 1%nat;
  launch_out := fun _ _ _ => Ret 2%nat;
  new_page_out := fun _ => Ret 3%nat;
  goto_out := fun _ _ => Raise (Exn "Error: net::ERR_CONNECTION_REFUSED");
  sleep_out := fun _ => Ret tt;
  screenshot_out := fun _ _ => Ret png_magic;
  is_visible_out := fun _ _ => Ret true;
  print_out := fun _ => Ret tt;
  close_out := fun _ => Ret tt;
  exit_out := fun _ => Ret tt
|}.

(** The page loads and the wait is interrupted from the keyboard. *)
Definition world_interrupted : World := {|
  enter_out := Ret 1%nat;
  launch_out := fun _ _ _ => Ret 2%nat;
  new_page_out := fun _ => Ret 3%nat;
  goto_out := fun _ _ => Ret (Some 200%nat);
  sleep_out := fun _ => Raise (Exn "KeyboardInterrupt");
  screenshot_out := fun _ _ => Ret png_magic;
  is_visible_out := fun _ _ => Ret true;
  print_out := fun _ => Ret tt;
  close_out := fun _ => Ret tt;
  exit_out := fun _ => Ret tt
|}.

(** The browser starts and refuses to open a page. *)
Definition world_no_page : World := {|
  enter_out := Ret 1%nat;
  launch_out := fun _ _ _ => Ret 2%nat;
  new_page_out := fun _ => Raise (Exn "TargetClosedError");
  goto_out := fun _ _ => Ret (Some 200%nat);
  sleep_out := fun _ => Ret tt;
  screenshot_out := fun _ _ => Ret png_magic;
  is_visible_out := fun _ _ => Ret true;
  print_out := fun _ => Ret tt;
  close_out := fun _ => Ret tt;
  exit_out := fun _ => Ret tt
|}.

(** Everything works, the text is there, and standard output is a pipe
    whose reader has gone. *)
Definition world_stdout_closed : World := {|
  enter_out := Ret 1%nat;
  launch_out := fun _ _ _ => Ret 2%nat;
  new_page_out := fun _ => Ret 3%nat;
  goto_out := fun _ _ => Ret None;
  sleep_out := fun _ => Ret tt;
  screenshot_out := fun _ _ => Ret png_magic;
  is_visible_out := fun _ _ => Ret true;
  print_out := fun _ => Raise (Exn "BrokenPipeError");
  close_out := fun _ => Ret tt;
  exit_out := fun _ => Ret tt
|}.

(** The browser has crashed: navigation raises, and so does closing. *)
Definition world_crashed : World := {|
  enter_out := Ret 1%nat;
  launch_out := fun _ _ _ => Ret 2%nat;
  new_page_out := fun _ => Ret 3%nat;
  goto_out := fun _ _ => Raise (Exn "Error: Page crashed");
  sleep_out := fun _ => Ret tt;
  screenshot_out := fun _ _ => Ret png_magic;
  is_visible_out := fun _ _ => Ret true;
  print_out := fun _ => Ret tt;
  close_out := fun _ => Raise (Exn "TargetClosedError");
  exit_out := fun _ => Ret tt
|}.

(** The Playwright driver does not start. *)
Definition world_no_driver : World := {|
  enter_out := Raise (Exn "Error: driver not found");
  launch_out := fun _ _ _ => Ret 2%nat;
  new_page_out := fun _ => Ret 3%nat;
  goto_out := fun _ _ => Ret None;
  sleep_out := fun _ => Ret tt;
  screenshot_out := fun _ _ => Ret png_magic;
  is_visible_out := fun _ _ => Ret true;
  print_out := fun _ => Ret tt;
  close_out := fun _ => Ret tt;
  exit_out := fun _ => Ret tt
|}.

(** The driver starts and no Chromium is installed. *)
Definition world_no_browser : World := {|
  enter_out := Ret 1%nat;
  launch_out := fun _ _ _ => Raise (Exn "Error: Executable does not exist");
  new_page_out := fun _ => Ret 3%nat;
  goto_out := fun _ _ => Ret None;
  sleep_out := fun _ => Ret tt;
  screenshot_out := fun _ _ => Ret png_magic;
  is_visible_out := fun _ _ => Ret true;
  print_out := fun _ => Ret tt;
  close_out := fun _ => Ret tt;
  exit_out := fun _ => Ret tt
|}.

(** The verification goes through and closing the browser fails. *)
Definition world_close_fails : World := {|
  enter_out := Ret 1%nat;
  launch_out := fun _ _ _ => Ret 2%nat;
  new_page_out := fun _ => Ret 3%nat;
  goto_out := fun _ _ => Ret (Some 200%nat);
  sleep_out := fun _ => Ret tt;
  screenshot_out := fun _ _ => Ret png_magic;
  is_visible_out := fun _ _ => Ret true;
  print_out := fun _ => Ret tt;
  close_out := fun _ => Raise (Exn "TargetClosedError");
  exit_out := fun _ => Ret tt
|}.

(** How far the main suite gets in acquiring its resources: the driver,
    the browser, the page. *)
Inductive acquisition (w : World) : Prop :=
| no_driver e :
    enter_out w = Raise e ->
    acquisition w
| no_browser p e :
    enter_out w = Ret p ->
    launch_out w p chromium true = Raise e ->
    acquisition w
| no_page p b e :
    enter_out w = Ret p ->
    launch_out w p chromium true = Ret b ->
    new_page_out w b = Raise e ->
    acquisition w
| acquired p b pg :
    enter_out w = Ret p ->
    launch_out w p chromium true = Ret b ->
    new_page_out w b = Ret pg ->
    acquisition w.

(** ** Framing and proof steps *)

(** A computation that leaves the trace it is given in place and adds
    to its end what it would add to the empty one. *)
Definition appends {A} (m : M A) : Prop :=
  forall w t, m w t = ((t ++ actions m w), result m w).

(** Split on the answer [o] of the world to a call of the trace; the goal
    assumes that every call of the trace returned, which settles the case
    in which this one raises. *)
Ltac answer_of o x H :=
  destruct o as [x | ?] eqn:H;
  [ | simpl; repeat match goal with E : _ = _ |- _ => rewrite E end;
      simpl; intros [=] ].

(** ** Runs of [verify_notes_load], case by case *)

(** The run of the function, read off the answers of the world. *)
Lemma verify_notes_load_run (w : World) (pg : page) :
  run (verify_notes_load pg) w =
  match goto_out w pg app_url with
  | Raise e => ([Goto pg app_url], Raise e)
  | Ret _ =>
    match sleep_out w 2 with
    | Raise e => ([Goto pg app_url; Sleep 2], Raise e)
    | Ret _ =>
      match screenshot_out w pg screenshot_path with
      | Raise e =>
          ([Goto pg app_url; Sleep 2; Screenshot pg screenshot_path], Raise e)
      | Ret _ =>
        match is_visible_out w pg (get_by_text welcome_text) with
        | Raise e =>
            ([Goto pg app_url; Sleep 2; Screenshot pg screenshot_path;
              IsVisible pg (get_by_text welcome_text)], Raise e)
        | Ret v =>
            let msg := if v then msg_onboarding else msg_not_onboarding in
            ([Goto pg app_url; Sleep 2; Screenshot pg screenshot_path;
              IsVisible pg (get_by_text welcome_text); PrintLine msg],
             print_out w msg)
        end
      end
    end
  end.
Proof.
  unfold run, verify_notes_load, bind, goto, sleep, screenshot, is_visible, perform.
  destruct (goto_out w pg app_url); [ | reflexivity ].
  destruct (sleep_out w 2); [ | reflexivity ].
  destruct (screenshot_out w pg screenshot_path); [ | reflexivity ].
  destruct (is_visible_out w pg (get_by_text welcome_text)) as [ [ | ] | ];
    reflexivity.
Qed.

(** Past the screenshot, the run is decided by the visibility check. *)
Lemma verify_notes_load_run_checked (w : World) (pg : page) :
  reaches_check w pg = true ->
  run (verify_notes_load pg) w =
  match is_visible_out w pg (get_by_text welcome_text) with
  | Raise e =>
      ([Goto pg app_url; Sleep 2; Screenshot pg screenshot_path;
        IsVisible pg (get_by_text welcome_text)], Raise e)
  | Ret v =>
      let msg := if v then msg_onboarding else msg_not_onboarding in
      ([Goto pg app_url; Sleep 2; Screenshot pg screenshot_path;
        IsVisible pg (get_by_text welcome_text); PrintLine msg],
       print_out w msg)
  end.
Proof.
  unfold reaches_check. intros H.
  apply andb_true_iff in H as [H Hshot]. apply andb_true_iff in H as [Hgoto Hsleep].
  rewrite verify_notes_load_run.
  destruct (goto_out w pg app_url); [ | discriminate ].
  destruct (sleep_out w 2); [ | discriminate ].
  destruct (screenshot_out w pg screenshot_path); [ | discriminate ].
  reflexivity.
Qed.

(** Past the screenshot, a visible welcome text leads to the first branch. *)
Lemma message_visible_branch (w : World) (pg : page) :
  reaches_check w pg = true ->
  is_visible_out w pg (get_by_text welcome_text) = Ret true ->
  printed (actions (verify_notes_load pg) w) = [msg_onboarding].
Proof.
  intros Hreach Hvis. unfold actions.
  now rewrite (verify_notes_load_run_checked w pg Hreach), Hvis.
Qed.

(** A step that raises ends the function there and then. *)
Lemma verify_notes_load_raises (w : World) (pg : page) (e : exn) :
  step_raises w pg e ->
  result (verify_notes_load pg) w = Raise e /\
  printed (actions (verify_notes_load pg) w) = [] /\
  forallb (answered w) (actions (verify_notes_load pg) w) = false.
Proof.
  unfold result, actions. intros H.
  destruct H as [Hg | Hg Hs | Hg Hs Hc | Hr Hv].
  - rewrite verify_notes_load_run, Hg. simpl. rewrite Hg. auto.
  - rewrite verify_notes_load_run, Hs.
    destruct (goto_out w pg app_url) eqn:G; [ | discriminate ].
    simpl. rewrite G, Hs. auto.
  - rewrite verify_notes_load_run, Hc.
    destruct (goto_out w pg app_url) eqn:G; [ | discriminate ].
    destruct (sleep_out w 2) eqn:S; [ | discriminate ].
    simpl. rewrite G, S, Hc. auto.
  - rewrite (verify_notes_load_run_checked w pg Hr), Hv.
    unfold reaches_check in Hr.
    apply andb_true_iff in Hr as [Hr Hc]. apply andb_true_iff in Hr as [Hg Hs].
    simpl. rewrite Hg, Hs, Hc, Hv. auto.
Qed.

(** ** Traces only grow *)

Lemma perform_appends {A} (a : action) (ans : World -> outcome A) :
  appends (perform a ans).
Proof. intros w t. reflexivity. Qed.

Lemma bind_appends {A B} (m : M A) (k : A -> M B) :
  appends m -> (forall a, appends (k a)) -> appends (bind m k).
Proof.
  intros Hm Hk w t.
  unfold actions, result, run, bind.
  rewrite (Hm w t), (Hm w []).
  destruct (result m w) as [a | e]; simpl.
  - rewrite (Hk a w (t ++ actions m w)), (Hk a w (actions m w)).
    simpl. now rewrite app_assoc.
  - reflexivity.
Qed.

Lemma try_finally_appends {A} (body : M A) (fin : M unit) :
  appends body -> appends fin -> appends (try_finally body fin).
Proof.
  intros Hb Hf w t.
  unfold actions, result, run, try_finally.
  rewrite (Hb w t), (Hb w []). simpl.
  rewrite (Hf w (t ++ actions body w)), (Hf w (actions body w)).
  simpl. now rewrite app_assoc.
Qed.

Lemma verify_notes_load_appends (pg : page) : appends (verify_notes_load pg).
Proof.
  unfold verify_notes_load, goto, sleep, screenshot, is_visible, print.
  do 3 (apply bind_appends; [ apply perform_appends | intros _ ]).
  apply bind_appends; [ apply perform_appends | intros v ].
  destruct v; apply perform_appends.
Qed.

(** ** Runs of the main suite, case by case *)

(** The run once the page exists: the three acquisitions, the whole of
    [verify_notes_load], then [browser.close()] and the manager's exit. *)
Lemma main_run_with_page (w : World) (p : playwright) (b : browser) (pg : page) :
  enter_out w = Ret p ->
  launch_out w p chromium true = Ret b ->
  new_page_out w b = Ret pg ->
  run main w =
  (([Enter; Launch p chromium true; NewPage b]
      ++ actions (verify_notes_load pg) w ++ [Close b; Exit p]),
   after_finally
     (after_finally (result (verify_notes_load pg) w) (close_out w b))
     (exit_out w p)).
Proof.
  intros He Hl Hn.
  unfold run, main, with_, bind, try_finally, sync_playwright_enter,
    sync_playwright_exit, launch, new_page, close, perform.
  rewrite He. simpl. rewrite Hl, Hn.
  rewrite (verify_notes_load_appends pg w). simpl.
  now rewrite <- app_assoc.
Qed.

(** The run when [browser.new_page()] raises: the [try] is never entered. *)
Lemma main_run_without_page (w : World) (p : playwright) (b : browser) (e : exn) :
  enter_out w = Ret p ->
  launch_out w p chromium true = Ret b ->
  new_page_out w b = Raise e ->
  run main w =
  ([Enter; Launch p chromium true; NewPage b; Exit p],
   after_finally (Raise e) (exit_out w p)).
Proof.
  intros He Hl Hn.
  unfold run, main, with_, bind, try_finally, sync_playwright_enter,
    sync_playwright_exit, launch, new_page, perform.
  rewrite He. simpl. rewrite Hl, Hn. reflexivity.
Qed.

(** An exception that is pending when a [finally] suite runs is still
    carried by whatever leaves the [try]. *)
Lemma with_context_carries (e2 e1 : exn) : carries (with_context e2 e1) e1.
Proof.
  induction e2 as [name | name c IH]; simpl.
  - apply carries_context, carries_self.
  - apply carries_context, IH.
Qed.

Lemma carries_trans (e3 e2 e1 : exn) :
  carries e3 e2 -> carries e2 e1 -> carries e3 e1.
Proof.
  induction 1 as [e | name c e _ IH]; intros H.
  - exact H.
  - apply carries_context, IH, H.
Qed.

Lemma after_finally_carries {A} (r : outcome A) (f : outcome unit) (e : exn) :
  (exists e1, r = Raise e1 /\ carries e1 e) ->
  exists e', after_finally r f = Raise e' /\ carries e' e
             /\ (returned f = true -> r = Raise e').
Proof.
  intros (e1 & -> & Hc).
  destruct f as [u | e2]; simpl.
  - exists e1. auto.
  - exists (with_context e2 e1). repeat split.
    + eapply carries_trans; [ apply with_context_carries | exact Hc ].
    + discriminate.
Qed.

(** ** Observations of a concatenated trace *)

Lemma printed_app (t1 t2 : trace) :
  printed (t1 ++ t2) = (printed t1 ++ printed t2).
Proof.
  induction t1 as [ | a t1 IH]; [ reflexivity | ].
  destruct a; simpl; now rewrite IH.
Qed.

Lemma screenshot_calls_app (t1 t2 : trace) :
  screenshot_calls (t1 ++ t2) = (screenshot_calls t1 ++ screenshot_calls t2).
Proof.
  induction t1 as [ | a t1 IH]; [ reflexivity | ].
  destruct a; simpl; now rewrite IH.
Qed.

Lemma files_written_app (w : World) (t1 t2 : trace) :
  files_written w (t1 ++ t2) = files_written w t1 ++ files_written w t2.
Proof.
  induction t1 as [ | a t1 IH]; [ reflexivity | ].
  destruct a; simpl; rewrite ?IH; try reflexivity.
  now destruct (returned (screenshot_out w pg path)).
Qed.

Lemma closed_app (t1 t2 : trace) :
  closed (t1 ++ t2) = (closed t1 ++ closed t2).
Proof.
  induction t1 as [ | a t1 IH]; [ reflexivity | ].
  destruct a; simpl; now rewrite IH.
Qed.

(** [verify_notes_load] never closes anything. *)
Lemma verify_notes_load_closes_nothing (w : World) (pg : page) :
  closed (actions (verify_notes_load pg) w) = [].
Proof.
  unfold actions. rewrite verify_notes_load_run.
  destruct (goto_out w pg app_url); [ | reflexivity ].
  destruct (sleep_out w 2); [ | reflexivity ].
  destruct (screenshot_out w pg screenshot_path); [ | reflexivity ].
  destruct (is_visible_out w pg (get_by_text welcome_text)); reflexivity.
Qed.

(** ** The scenarios of the specification, run *)

(** Server up, onboarding text present. *)
Example scenario_text_present :
  run main (world_up true) =
  ([ Enter; Launch 1 chromium true; NewPage 2;
     Goto 3 "http://localhost:5173"; Sleep 2;
     Screenshot 3 "/home/jules/verification/initial_load.png";
     IsVisible 3 (ByText "Welcome to Pinn");
     PrintLine "Onboarding visible";
     Close 2; Exit 1 ],
   Ret tt).
Proof. reflexivity. Qed.

(** Server up, onboarding text absent. *)
Example scenario_text_absent :
  run main (world_up false) =
  ([ Enter; Launch 1 chromium true; NewPage 2;
     Goto 3 "http://localhost:5173"; Sleep 2;
     Screenshot 3 "/home/jules/verification/initial_load.png";
     IsVisible 3 (ByText "Welcome to Pinn");
     PrintLine "Not on onboarding?";
     Close 2; Exit 1 ],
   Ret tt).
Proof. reflexivity. Qed.

(** Server down. *)
Example scenario_server_down :
  run main world_server_down =
  ([ Enter; Launch 1 chromium true; NewPage 2;
     Goto 3 "http://localhost:5173";
     Close 2; Exit 1 ],
   Raise (Exn "Error: net::ERR_CONNECTION_REFUSED")).
Proof. reflexivity. Qed.

(** A failure of the body followed by a failure of the cleanup: the second
    exception is the one that leaves, with the first as its context. *)
Example scenario_double_fault :
  run main world_crashed =
  ([ Enter; Launch 1 chromium true; NewPage 2;
     Goto 3 "http://localhost:5173";
     Close 2; Exit 1 ],
   Raise (ExnIn "TargetClosedError" (Exn "Error: Page crashed"))).
Proof. reflexivity. Qed.

(** * The properties of the specification *)

(** ** The verification routine *)

(** C1.  In a run of [verify_notes_load] in which no call raises, the calls
    made are, in this order and with nothing else: navigate the page to
    http://localhost:5173, sleep two seconds, take a screenshot to
    /home/jules/verification/initial_load.png, ask once whether the text
    "Welcome to Pinn" is visible, and print one of the two fixed messages. *)
Theorem verify_notes_load_sequence (w : World) (pg : page) :
  forallb (answered w) (actions (verify_notes_load pg) w) = true ->
  exists v : bool,
    is_visible_out w pg (ByText "Welcome to Pinn") = Ret v /\
    actions (verify_notes_load pg) w =
      [ Goto pg "http://localhost:5173";
        Sleep 2;
        Screenshot pg "/home/jules/verification/initial_load.png";
        IsVisible pg (ByText "Welcome to Pinn");
        PrintLine (if v then "Onboarding visible" else "Not on onboarding?") ] /\
    result (verify_notes_load pg) w = Ret tt.
Proof.
  unfold actions, result. rewrite verify_notes_load_run.
  fold app_url screenshot_path welcome_text msg_onboarding msg_not_onboarding.
  change (ByText welcome_text) with (get_by_text welcome_text).
  answer_of (goto_out w pg app_url) r Hgoto.
  answer_of (sleep_out w 2) u Hsleep.
  answer_of (screenshot_out w pg screenshot_path) png Hshot.
  answer_of (is_visible_out w pg (get_by_text welcome_text)) v Hvis.
  answer_of (print_out w (if v then msg_onboarding else msg_not_onboarding)) u' Hprint.
  intros _. exists v. destruct u'. repeat split. exact Hprint.
Qed.

Lemma verify_notes_load_sequence_witness :
  forallb (answered (world_up true))
          (actions (verify_notes_load 3) (world_up true)) = true /\
  exists v : bool,
    is_visible_out (world_up true) 3 (ByText "Welcome to Pinn") = Ret v /\
    actions (verify_notes_load 3) (world_up true) =
      [ Goto 3 "http://localhost:5173";
        Sleep 2;
        Screenshot 3 "/home/jules/verification/initial_load.png";
        IsVisible 3 (ByText "Welcome to Pinn");
        PrintLine (if v then "Onboarding visible" else "Not on onboarding?") ] /\
    result (verify_notes_load 3) (world_up true) = Ret tt.
Proof.
  split; [ reflexivity | ].
  apply (verify_notes_load_sequence (world_up true) 3). reflexivity.
Defined.

(** C2.  In a run that reaches the visibility check, the message printed is
    "Onboarding visible" when the check answers true and
    "Not on onboarding?" when it answers false: it is a function of that
    one boolean, and it is the only message printed. *)
Theorem message_follows_visibility (w : World) (pg : page) (v : bool) :
  reaches_check w pg = true ->
  is_visible_out w pg (ByText "Welcome to Pinn") = Ret v ->
  printed (actions (verify_notes_load pg) w) =
    [ if v then "Onboarding visible" else "Not on onboarding?" ].
Proof.
  intros Hreach Hvis. unfold actions.
  rewrite (verify_notes_load_run_checked w pg Hreach).
  change (get_by_text welcome_text) with (ByText "Welcome to Pinn").
  rewrite Hvis. reflexivity.
Qed.

Lemma message_follows_visibility_witness :
  reaches_check (world_up false) 3 = true /\
  is_visible_out (world_up false) 3 (ByText "Welcome to Pinn") = Ret false /\
  printed (actions (verify_notes_load 3) (world_up false)) = [ "Not on onboarding?" ].
Proof.
  split; [ reflexivity | split; [ reflexivity | ] ].
  apply (message_follows_visibility (world_up false) 3 false); reflexivity.
Defined.

(** C8.  When [verify_notes_load] returns normally it has printed exactly
    one message, one of "Onboarding visible" and "Not on onboarding?", and
    what it returns is the unit value (Python's [None]). *)
Theorem exactly_one_message (w : World) (pg : page) :
  returned (result (verify_notes_load pg) w) = true ->
  result (verify_notes_load pg) w = Ret tt /\
  (printed (actions (verify_notes_load pg) w) = [ "Onboarding visible" ] \/
   printed (actions (verify_notes_load pg) w) = [ "Not on onboarding?" ]).
Proof.
  unfold result, actions. rewrite verify_notes_load_run.
  destruct (goto_out w pg app_url); [ | discriminate ].
  destruct (sleep_out w 2); [ | discriminate ].
  destruct (screenshot_out w pg screenshot_path); [ | discriminate ].
  destruct (is_visible_out w pg (get_by_text welcome_text)) as [v | e];
    [ | discriminate ].
  cbn [fst snd].
  destruct (print_out w (if v then msg_onboarding else msg_not_onboarding))
    as [ [] | e ]; [ intros _ | discriminate ].
  split; [ reflexivity | ].
  destruct v; [ left | right ]; reflexivity.
Qed.

Lemma exactly_one_message_witness :
  returned (result (verify_notes_load 3) (world_up true)) = true /\
  result (verify_notes_load 3) (world_up true) = Ret tt /\
  (printed (actions (verify_notes_load 3) (world_up true)) = [ "Onboarding visible" ] \/
   printed (actions (verify_notes_load 3) (world_up true)) = [ "Not on onboarding?" ]).
Proof.
  split; [ reflexivity | ].
  apply (exactly_one_message (world_up true) 3). reflexivity.
Defined.

(** C10.  Two runs of [verify_notes_load] in which navigation, the wait and
    the screenshot succeed and in which the visibility check gives the same
    boolean print the same single message and take the screenshot to the
    same path; on the same page they make the very same calls.  Nothing
    else in the world has a say. *)
Theorem verify_notes_load_deterministic
    (w1 w2 : World) (pg1 pg2 : page) (v : bool) :
  reaches_check w1 pg1 = true ->
  reaches_check w2 pg2 = true ->
  is_visible_out w1 pg1 (ByText "Welcome to Pinn") = Ret v ->
  is_visible_out w2 pg2 (ByText "Welcome to Pinn") = Ret v ->
  let t1 := actions (verify_notes_load pg1) w1 in
  let t2 := actions (verify_notes_load pg2) w2 in
  printed t1 = printed t2 /\
  List.length (printed t1) = 1%nat /\
  screenshot_calls t1 = screenshot_calls t2 /\
  files_written w1 t1 = files_written w2 t2 /\
  (pg1 = pg2 -> t1 = t2).
Proof.
  intros R1 R2 V1 V2 t1 t2. subst t1 t2. unfold actions.
  rewrite (verify_notes_load_run_checked w1 pg1 R1).
  rewrite (verify_notes_load_run_checked w2 pg2 R2).
  change (get_by_text welcome_text) with (ByText "Welcome to Pinn").
  rewrite V1, V2. cbn [fst].
  unfold reaches_check in R1, R2.
  apply andb_true_iff in R1 as [_ S1]. apply andb_true_iff in R2 as [_ S2].
  repeat split.
  - simpl. now rewrite S1, S2.
  - now intros ->.
Qed.

Lemma verify_notes_load_deterministic_witness :
  reaches_check (world_up true) 3 = true /\
  reaches_check world_stdout_closed 3 = true /\
  is_visible_out (world_up true) 3 (ByText "Welcome to Pinn") = Ret true /\
  is_visible_out world_stdout_closed 3 (ByText "Welcome to Pinn") = Ret true /\
  printed (actions (verify_notes_load 3) (world_up true)) =
    printed (actions (verify_notes_load 3) world_stdout_closed) /\
  actions (verify_notes_load 3) (world_up true) =
    actions (verify_notes_load 3) world_stdout_closed.
Proof.
  do 4 (split; [ reflexivity | ]).
  destruct (verify_notes_load_deterministic
              (world_up true) world_stdout_closed 3 3 true
              eq_refl eq_refl eq_refl eq_refl) as (Hp & _ & _ & _ & Ht).
  split; [ exact Hp | exact (Ht eq_refl) ].
Defined.

(** C5.  When [page.goto] raises, [verify_notes_load] stops there: the only
    call made is the navigation, so the screenshot call is not reached and
    no file is written, by the function or by the main suite that called
    it.  In any run, a screenshot call in the trace has the navigation
    before it, and that navigation returned. *)
Theorem no_screenshot_when_goto_raises (w : World) (pg : page) :
  (forall e, goto_out w pg "http://localhost:5173" = Raise e ->
     actions (verify_notes_load pg) w = [ Goto pg "http://localhost:5173" ] /\
     result (verify_notes_load pg) w = Raise e /\
     files_written w (actions (verify_notes_load pg) w) = [] /\
     forall p b,
       enter_out w = Ret p ->
       launch_out w p chromium true = Ret b ->
       new_page_out w b = Ret pg ->
       screenshot_calls (actions main w) = [] /\
       files_written w (actions main w) = []) /\
  (forall before pg' path after,
     actions (verify_notes_load pg) w = before ++ Screenshot pg' path :: after ->
     In (Goto pg "http://localhost:5173") before /\
     returned (goto_out w pg "http://localhost:5173") = true).
Proof.
  fold app_url. split.
  - intros e Hgoto.
    assert (Hrun : run (verify_notes_load pg) w = ([Goto pg app_url], Raise e))
      by now rewrite verify_notes_load_run, Hgoto.
    unfold actions, result. rewrite Hrun.
    do 3 (split; [ reflexivity | ]).
    intros p b He Hl Hn.
    rewrite (main_run_with_page w p b pg He Hl Hn).
    unfold actions. rewrite Hrun. split; reflexivity.
  - intros before pg' path after. unfold actions.
    rewrite verify_notes_load_run.
    destruct (goto_out w pg app_url) as [r | e].
    + intros Ht. split; [ | reflexivity ].
      destruct before as [ | a before].
      * destruct (sleep_out w 2); [ | discriminate Ht ].
        destruct (screenshot_out w pg screenshot_path); [ | discriminate Ht ].
        destruct (is_visible_out w pg (get_by_text welcome_text));
          discriminate Ht.
      * left.
        destruct (sleep_out w 2); [ | now inversion Ht ].
        destruct (screenshot_out w pg screenshot_path); [ | now inversion Ht ].
        destruct (is_visible_out w pg (get_by_text welcome_text));
          now inversion Ht.
    + simpl. intros Ht. exfalso.
      destruct before as [ | a [ | a' before] ]; discriminate Ht.
Qed.

Lemma no_screenshot_when_goto_raises_witness :
  goto_out world_server_down 3 "http://localhost:5173"
    = Raise (Exn "Error: net::ERR_CONNECTION_REFUSED") /\
  actions (verify_notes_load 3) world_server_down = [ Goto 3 "http://localhost:5173" ] /\
  screenshot_calls (actions main world_server_down) = [] /\
  returned (goto_out (world_up true) 3 "http://localhost:5173") = true.
Proof.
  split; [ reflexivity | ].
  destruct (no_screenshot_when_goto_raises world_server_down 3) as [Hdown _].
  destruct (Hdown _ eq_refl) as (Ht & _ & _ & Hmain).
  destruct (Hmain 1%nat 2%nat eq_refl eq_refl eq_refl) as [Hcalls _].
  destruct (no_screenshot_when_goto_raises (world_up true) 3) as [_ Hup].
  destruct (Hup [Goto 3 app_url; Sleep 2] 3%nat screenshot_path
                [IsVisible 3 (get_by_text welcome_text); PrintLine msg_onboarding]
                eq_refl) as [_ Hret].
  repeat split; assumption.
Defined.

(** ** The main suite *)

(** C3.  In a run of the main suite in which the browser is launched and
    the page is created, [browser.close()] is called, once, on that
    browser, right after whatever [verify_notes_load] did and before the
    manager exits; this holds whatever the outcome of [verify_notes_load],
    a return or an exception. *)
Theorem close_always_invoked (w : World) (p : playwright) (b : browser) (pg : page) :
  enter_out w = Ret p ->
  launch_out w p chromium true = Ret b ->
  new_page_out w b = Ret pg ->
  actions main w =
    [Enter; Launch p chromium true; NewPage b]
      ++ actions (verify_notes_load pg) w
      ++ [Close b; Exit p] /\
  closed (actions main w) = [b] /\
  In (Close b) (actions main w).
Proof.
  intros He Hl Hn.
  assert (Ht : actions main w =
               [Enter; Launch p chromium true; NewPage b]
                 ++ actions (verify_notes_load pg) w ++ [Close b; Exit p]).
  { unfold actions at 1. now rewrite (main_run_with_page w p b pg He Hl Hn). }
  split; [ exact Ht | split ].
  - rewrite Ht, !closed_app, verify_notes_load_closes_nothing. reflexivity.
  - rewrite Ht.
    apply in_or_app; right. apply in_or_app; right. now left.
Qed.

Lemma close_always_invoked_witness :
  (enter_out world_interrupted = Ret 1%nat /\
   launch_out world_interrupted 1%nat chromium true = Ret 2%nat /\
   new_page_out world_interrupted 2%nat = Ret 3%nat) /\
  result (verify_notes_load 3) world_interrupted = Raise (Exn "KeyboardInterrupt") /\
  closed (actions main world_interrupted) = [2%nat] /\
  result (verify_notes_load 3) (world_up true) = Ret tt /\
  closed (actions main (world_up true)) = [2%nat].
Proof.
  split; [ repeat split | ].
  split; [ reflexivity | ].
  split; [ | split; [ reflexivity | ] ].
  - apply (close_always_invoked world_interrupted 1%nat 2%nat 3%nat); reflexivity.
  - apply (close_always_invoked (world_up true) 1%nat 2%nat 3%nat); reflexivity.
Defined.

(** C9.  When the browser is launched and [browser.new_page()] raises, the
    script never calls [browser.close()]: the page is created before the
    [try] begins, so the [finally] suite is not in force yet.  The calls
    made are the three acquisitions and the manager's exit. *)
Theorem close_skipped_when_new_page_raises
    (w : World) (p : playwright) (b : browser) (e : exn) :
  enter_out w = Ret p ->
  launch_out w p chromium true = Ret b ->
  new_page_out w b = Raise e ->
  actions main w = [Enter; Launch p chromium true; NewPage b; Exit p] /\
  closed (actions main w) = [] /\
  (forall b', ~ In (Close b') (actions main w)) /\
  exists e', result main w = Raise e' /\ carries e' e.
Proof.
  intros He Hl Hn.
  unfold actions, result. rewrite (main_run_without_page w p b e He Hl Hn).
  cbn [fst snd]. split; [ reflexivity | split; [ reflexivity | split ] ].
  - intros b' Hin. simpl in Hin.
    repeat (destruct Hin as [Hin | Hin]; [ discriminate Hin | ]).
    exact Hin.
  - destruct (after_finally_carries (A := unit) (Raise e) (exit_out w p) e)
      as (e' & Hr & Hc & _).
    + exists e. split; [ reflexivity | apply carries_self ].
    + exists e'. now split.
Qed.

Lemma close_skipped_when_new_page_raises_witness :
  (enter_out world_no_page = Ret 1%nat /\
   launch_out world_no_page 1%nat chromium true = Ret 2%nat /\
   new_page_out world_no_page 2%nat = Raise (Exn "TargetClosedError")) /\
  actions main world_no_page = [Enter; Launch 1 chromium true; NewPage 2; Exit 1] /\
  closed (actions main world_no_page) = [].
Proof.
  split; [ repeat split | ].
  destruct (close_skipped_when_new_page_raises
              world_no_page 1%nat 2%nat (Exn "TargetClosedError")
              eq_refl eq_refl eq_refl) as (Ht & Hc & _).
  split; assumption.
Defined.

(** C4.  An exception raised by the navigation, the wait, the screenshot or
    the visibility check leaves [verify_notes_load] as it is, and the main
    suite ends in an uncaught exception that carries it: the very same
    exception when [browser.close()] and the manager's exit return, and
    otherwise the exception of the cleanup with the original one as its
    context.  Nothing catches it and no message is printed. *)
Theorem step_exception_propagates (w : World) (pg : page) (e : exn) :
  step_raises w pg e ->
  result (verify_notes_load pg) w = Raise e /\
  printed (actions (verify_notes_load pg) w) = [] /\
  forall p b,
    enter_out w = Ret p ->
    launch_out w p chromium true = Ret b ->
    new_page_out w b = Ret pg ->
    (exists e',
       result main w = Raise e' /\
       carries e' e /\
       (returned (close_out w b) = true ->
        returned (exit_out w p) = true -> e' = e)) /\
    printed (actions main w) = [].
Proof.
  intros Hstep.
  destruct (verify_notes_load_raises w pg e Hstep) as (Hres & Hquiet & _).
  split; [ exact Hres | split; [ exact Hquiet | ] ].
  intros p b He Hl Hn. split.
  - unfold result at 1. rewrite (main_run_with_page w p b pg He Hl Hn).
    cbn [snd]. rewrite Hres.
    destruct (after_finally_carries (A := unit) (Raise e) (close_out w b) e)
      as (e1 & H1 & C1 & K1).
    { exists e. split; [ reflexivity | apply carries_self ]. }
    destruct (after_finally_carries (A := unit)
                (after_finally (Raise e) (close_out w b))
                (exit_out w p) e) as (e2 & H2 & C2 & K2).
    { exists e1. now split. }
    exists e2. split; [ exact H2 | split; [ exact C2 | ] ].
    intros Hclose Hexit.
    specialize (K1 Hclose). specialize (K2 Hexit). congruence.
  - unfold actions at 1. rewrite (main_run_with_page w p b pg He Hl Hn).
    cbn [fst]. rewrite !printed_app, Hquiet. reflexivity.
Qed.

Lemma step_exception_propagates_witness :
  step_raises world_server_down 3 (Exn "Error: net::ERR_CONNECTION_REFUSED") /\
  result (verify_notes_load 3) world_server_down
    = Raise (Exn "Error: net::ERR_CONNECTION_REFUSED") /\
  result main world_server_down
    = Raise (Exn "Error: net::ERR_CONNECTION_REFUSED") /\
  printed (actions main world_server_down) = [].
Proof.
  assert (Hstep : step_raises world_server_down 3
                    (Exn "Error: net::ERR_CONNECTION_REFUSED"))
    by (apply raises_in_goto; reflexivity).
  split; [ exact Hstep | ].
  destruct (step_exception_propagates world_server_down 3%nat _ Hstep)
    as (Hv & _ & Hmain).
  destruct (Hmain 1%nat 2%nat eq_refl eq_refl eq_refl)
    as ((e' & Hm & _ & Hsame) & Hq).
  split; [ exact Hv | split; [ | exact Hq ] ].
  rewrite Hm. f_equal. apply Hsame; reflexivity.
Defined.

(** ** The screenshot file *)

(** C6, as the specification states it, fails: navigation succeeds, the
    two-second wait is interrupted, and no screenshot is ever taken. *)
Lemma screenshot_missing_when_wait_interrupted :
  ~ (returned (goto_out world_interrupted 3 "http://localhost:5173") = true ->
     files_written world_interrupted
       (actions (verify_notes_load 3) world_interrupted)
     = [ "/home/jules/verification/initial_load.png" ]).
Proof.
  intros H. specialize (H eq_refl). discriminate H.
Qed.

(** C6, amended.  In a run in which navigation, the two-second wait and the
    screenshot call all return, exactly one file is written, at
    /home/jules/verification/initial_load.png.  It is written before the
    visibility check is made, so whatever that check does (answer true,
    answer false, raise) the file is there, and nothing after it writes
    another one, in the function or in the main suite around it. *)
Theorem one_screenshot_when_capture_returns (w : World) (pg : page) :
  reaches_check w pg = true ->
  files_written w (actions (verify_notes_load pg) w)
    = [ "/home/jules/verification/initial_load.png" ] /\
  screenshot_calls (actions (verify_notes_load pg) w)
    = [ "/home/jules/verification/initial_load.png" ] /\
  (exists rest,
     actions (verify_notes_load pg) w =
       [ Goto pg "http://localhost:5173"; Sleep 2;
         Screenshot pg "/home/jules/verification/initial_load.png";
         IsVisible pg (ByText "Welcome to Pinn") ] ++ rest /\
     files_written w rest = []) /\
  (forall p b,
     enter_out w = Ret p ->
     launch_out w p chromium true = Ret b ->
     new_page_out w b = Ret pg ->
     files_written w (actions main w)
       = [ "/home/jules/verification/initial_load.png" ]).
Proof.
  intros Hreach.
  pose proof (verify_notes_load_run_checked w pg Hreach) as Hrun.
  unfold reaches_check in Hreach.
  apply andb_true_iff in Hreach as [_ Hshot].
  assert (Hfiles : files_written w (actions (verify_notes_load pg) w)
                   = [screenshot_path]).
  { unfold actions. rewrite Hrun.
    destruct (is_visible_out w pg (get_by_text welcome_text));
      simpl; now rewrite Hshot. }
  split; [ exact Hfiles | split; [ | split ] ].
  - unfold actions. rewrite Hrun.
    now destruct (is_visible_out w pg (get_by_text welcome_text)).
  - unfold actions. rewrite Hrun.
    destruct (is_visible_out w pg (get_by_text welcome_text)) as [v | e].
    + now exists [PrintLine (if v then msg_onboarding else msg_not_onboarding)].
    + now exists [].
  - intros p b He Hl Hn.
    unfold actions at 1. rewrite (main_run_with_page w p b pg He Hl Hn).
    cbn [fst]. rewrite !files_written_app, Hfiles. reflexivity.
Qed.

Lemma one_screenshot_when_capture_returns_witness :
  reaches_check (world_up false) 3 = true /\
  files_written (world_up false) (actions (verify_notes_load 3) (world_up false))
    = [ "/home/jules/verification/initial_load.png" ] /\
  files_written (world_up false) (actions main (world_up false))
    = [ "/home/jules/verification/initial_load.png" ].
Proof.
  split; [ reflexivity | ].
  destruct (one_screenshot_when_capture_returns (world_up false) 3 eq_refl)
    as (Hf & _ & _ & Hmain).
  split; [ exact Hf | exact (Hmain 1%nat 2%nat eq_refl eq_refl eq_refl) ].
Defined.

(** ** The onboarding branch *)

Section Onboarding.

(** The storage key under which the application keeps its configuration. *)
Variable config_key : string.

Lemma fresh_context_shows_onboarding :
  onboarding_shown config_key fresh_context = true.
Proof. reflexivity. Qed.

(** C7.  When the page shows the application in a fresh browsing context,
    where the configuration key is absent and the onboarding screen is
    therefore shown, the [else] branch is dead: "Not on onboarding?" is
    never printed, and a run that gets to the [if] prints
    "Onboarding visible". *)
Theorem not_onboarding_unreachable (w : World) (pg : page) :
  serves_app config_key fresh_context w pg ->
  ~ In (PrintLine "Not on onboarding?") (actions (verify_notes_load pg) w) /\
  (reaches_check w pg = true ->
   printed (actions (verify_notes_load pg) w) = [ "Onboarding visible" ]).
Proof.
  unfold serves_app. rewrite fresh_context_shows_onboarding. intros Hvis.
  split.
  - unfold actions. rewrite verify_notes_load_run, Hvis.
    destruct (goto_out w pg app_url);
      [ | simpl; intros [H | []]; discriminate H ].
    destruct (sleep_out w 2);
      [ | simpl; intros [H | [H | []]]; discriminate H ].
    destruct (screenshot_out w pg screenshot_path);
      [ | simpl; intros [H | [H | [H | []]]]; discriminate H ].
    simpl. intros [H | [H | [H | [H | [H | []]]]]]; discriminate H.
  - intros Hreach.
    exact (message_visible_branch w pg Hreach Hvis).
Qed.

End Onboarding.

Lemma not_onboarding_unreachable_witness :
  serves_app "pinn.folder" fresh_context (world_up true) 3 /\
  reaches_check (world_up true) 3 = true /\
  ~ In (PrintLine "Not on onboarding?")
       (actions (verify_notes_load 3) (world_up true)) /\
  printed (actions (verify_notes_load 3) (world_up true)) = [ "Onboarding visible" ].
Proof.
  split; [ reflexivity | split; [ reflexivity | ] ].
  destruct (not_onboarding_unreachable "pinn.folder" (world_up true) 3 eq_refl)
    as [Hdead Hlive].
  split; [ exact Hdead | exact (Hlive eq_refl) ].
Defined.

(** * Further properties of the script *)

(** ** Runs of the main suite that stop early *)

Lemma acquisition_cases (w : World) : acquisition w.
Proof.
  destruct (enter_out w) as [p | e] eqn:He; [ | exact (no_driver w e He) ].
  destruct (launch_out w p chromium true) as [b | e] eqn:Hl;
    [ | exact (no_browser w p e He Hl) ].
  destruct (new_page_out w b) as [pg | e] eqn:Hn;
    [ exact (acquired w p b pg He Hl Hn) | exact (no_page w p b e He Hl Hn) ].
Qed.

Lemma main_run_without_driver (w : World) (e : exn) :
  enter_out w = Raise e ->
  run main w = ([Enter], Raise e).
Proof.
  intros He.
  unfold run, main, with_, bind, sync_playwright_enter, perform.
  now rewrite He.
Qed.

Lemma main_run_without_browser (w : World) (p : playwright) (e : exn) :
  enter_out w = Ret p ->
  launch_out w p chromium true = Raise e ->
  run main w =
  ([Enter; Launch p chromium true; Exit p],
   after_finally (Raise e) (exit_out w p)).
Proof.
  intros He Hl.
  unfold run, main, with_, bind, try_finally, sync_playwright_enter,
    sync_playwright_exit, launch, perform.
  rewrite He. simpl. now rewrite Hl.
Qed.

(** The calls [verify_notes_load] can make, in any run. *)
Lemma verify_notes_load_calls (w : World) (pg : page) (a : action) :
  In a (actions (verify_notes_load pg) w) ->
  a = Goto pg app_url \/ a = Sleep 2 \/ a = Screenshot pg screenshot_path \/
  a = IsVisible pg (get_by_text welcome_text) \/
  a = PrintLine msg_onboarding \/ a = PrintLine msg_not_onboarding.
Proof.
  unfold actions. rewrite verify_notes_load_run.
  destruct (goto_out w pg app_url);
    [ | simpl; intuition congruence ].
  destruct (sleep_out w 2);
    [ | simpl; intuition congruence ].
  destruct (screenshot_out w pg screenshot_path);
    [ | simpl; intuition congruence ].
  destruct (is_visible_out w pg (get_by_text welcome_text)) as [ [ | ] | e ];
    simpl; intuition congruence.
Qed.

(** [returned] through a [finally]: both the body and the suite returned. *)
Lemma returned_after_finally {A} (r : outcome A) (f : outcome unit) :
  returned (after_finally r f) = returned r && returned f.
Proof.
  destruct r, f; reflexivity.
Qed.

(** [verify_notes_load] returns exactly when each of its calls did. *)
Lemma verify_notes_load_returned (w : World) (pg : page) :
  returned (result (verify_notes_load pg) w)
  = forallb (answered w) (actions (verify_notes_load pg) w).
Proof.
  unfold result, actions. rewrite verify_notes_load_run.
  destruct (goto_out w pg app_url) eqn:Hgoto;
    [ | simpl; now rewrite Hgoto ].
  destruct (sleep_out w 2) eqn:Hsleep;
    [ | simpl; now rewrite Hgoto, Hsleep ].
  destruct (screenshot_out w pg screenshot_path) eqn:Hshot;
    [ | simpl; now rewrite Hgoto, Hsleep, Hshot ].
  destruct (is_visible_out w pg (get_by_text welcome_text)) as [v | e] eqn:Hvis;
    [ | simpl; now rewrite Hgoto, Hsleep, Hshot, Hvis ].
  simpl. rewrite Hgoto, Hsleep, Hshot, Hvis. simpl.
  now rewrite andb_true_r.
Qed.

(** What [verify_notes_load] prints, in any run. *)
Lemma verify_notes_load_printed (w : World) (pg : page) :
  printed (actions (verify_notes_load pg) w) =
  if reaches_check w pg
  then match is_visible_out w pg (get_by_text welcome_text) with
       | Ret v => [if v then msg_onboarding else msg_not_onboarding]
       | Raise _ => []
       end
  else [].
Proof.
  unfold actions, reaches_check. rewrite verify_notes_load_run.
  destruct (goto_out w pg app_url); [ | reflexivity ].
  destruct (sleep_out w 2); [ | reflexivity ].
  destruct (screenshot_out w pg screenshot_path); [ | reflexivity ].
  destruct (is_visible_out w pg (get_by_text welcome_text)); reflexivity.
Qed.

(** What [verify_notes_load] writes, in any run. *)
Lemma verify_notes_load_files (w : World) (pg : page) :
  files_written w (actions (verify_notes_load pg) w) =
  if reaches_check w pg then [screenshot_path] else [].
Proof.
  unfold actions, reaches_check. rewrite verify_notes_load_run.
  destruct (goto_out w pg app_url); [ | reflexivity ].
  destruct (sleep_out w 2); [ | reflexivity ].
  destruct (screenshot_out w pg screenshot_path) eqn:Hshot;
    [ | simpl; now rewrite Hshot ].
  destruct (is_visible_out w pg (get_by_text welcome_text));
    simpl; now rewrite Hshot.
Qed.

(** What the main suite prints and writes is what [verify_notes_load]
    does, when it is called at all. *)
Lemma main_printed_and_files (w : World) :
  (printed (actions main w) = [] /\ files_written w (actions main w) = []) \/
  (exists p b pg,
     enter_out w = Ret p /\
     launch_out w p chromium true = Ret b /\
     new_page_out w b = Ret pg /\
     printed (actions main w) = printed (actions (verify_notes_load pg) w) /\
     files_written w (actions main w)
       = files_written w (actions (verify_notes_load pg) w)).
Proof.
  destruct (acquisition_cases w) as [e He | p e He Hl | p b e He Hl Hn | p b pg He Hl Hn].
  - left. unfold actions. now rewrite (main_run_without_driver w e He).
  - left. unfold actions. now rewrite (main_run_without_browser w p e He Hl).
  - left. unfold actions. now rewrite (main_run_without_page w p b e He Hl Hn).
  - right. exists p, b, pg. do 3 (split; [ assumption | ]).
    unfold actions at 1 3. rewrite (main_run_with_page w p b pg He Hl Hn).
    cbn [fst]. rewrite !printed_app, !files_written_app. simpl.
    now rewrite !app_nil_r.
Qed.

(** ** Exit status *)

(** X1.  The main suite ends without an exception exactly when every call
    it made returned, the cleanup calls included: a failure anywhere, in the
    acquisition, in the body or in [browser.close()] and the manager's exit,
    shows in how the script ends. *)
Theorem clean_exit_iff_all_calls_returned (w : World) :
  returned (result main w) = forallb (answered w) (actions main w).
Proof.
  unfold result, actions.
  destruct (acquisition_cases w) as [e He | p e He Hl | p b e He Hl Hn | p b pg He Hl Hn].
  - rewrite (main_run_without_driver w e He). simpl. now rewrite He.
  - rewrite (main_run_without_browser w p e He Hl). cbn [fst snd].
    rewrite returned_after_finally. simpl. now rewrite He, Hl.
  - rewrite (main_run_without_page w p b e He Hl Hn). cbn [fst snd].
    rewrite returned_after_finally. simpl. now rewrite He, Hl, Hn.
  - rewrite (main_run_with_page w p b pg He Hl Hn). cbn [fst snd].
    rewrite !returned_after_finally, !forallb_app, verify_notes_load_returned.
    simpl. rewrite He, Hl, Hn. simpl.
    now rewrite andb_true_r, andb_assoc.
Qed.

(** X2.  [verify_notes_load] fails fast: it returns exactly when each of
    its calls returned, and in every run every call but the last one made
    has returned, so that nothing is called after a failure. *)
Theorem verify_notes_load_fails_fast (w : World) (pg : page) :
  returned (result (verify_notes_load pg) w)
    = forallb (answered w) (actions (verify_notes_load pg) w) /\
  forallb (answered w) (removelast (actions (verify_notes_load pg) w)) = true.
Proof.
  split; [ apply verify_notes_load_returned | ].
  unfold actions. rewrite verify_notes_load_run.
  destruct (goto_out w pg app_url) eqn:Hgoto; [ | reflexivity ].
  destruct (sleep_out w 2) eqn:Hsleep; [ | simpl; now rewrite Hgoto ].
  destruct (screenshot_out w pg screenshot_path) eqn:Hshot;
    [ | simpl; now rewrite Hgoto, Hsleep ].
  destruct (is_visible_out w pg (get_by_text welcome_text)) eqn:Hvis;
    simpl; now rewrite Hgoto, Hsleep, Hshot, ?Hvis.
Qed.

(** ** Acquisition failures *)

(** X3.  When the Playwright manager cannot be entered, the script does
    nothing else: no browser is launched, the manager's exit is not run, and
    the exception of the entry leaves the script as it is. *)
Theorem nothing_runs_without_driver (w : World) (e : exn) :
  enter_out w = Raise e ->
  actions main w = [Enter] /\ result main w = Raise e.
Proof.
  intros He. unfold actions, result.
  now rewrite (main_run_without_driver w e He).
Qed.

Lemma nothing_runs_without_driver_witness :
  enter_out world_no_driver = Raise (Exn "Error: driver not found") /\
  actions main world_no_driver = [Enter] /\
  result main world_no_driver = Raise (Exn "Error: driver not found").
Proof.
  split; [ reflexivity | ].
  apply (nothing_runs_without_driver world_no_driver). reflexivity.
Defined.

(** X4.  When the browser cannot be launched, no page is opened, nothing is
    navigated and [browser.close()] is not called; the manager's exit still
    runs, and the exception of the launch leaves the script (the very same
    one when the exit returns). *)
Theorem launch_failure_skips_page_and_close (w : World) (p : playwright) (e : exn) :
  enter_out w = Ret p ->
  launch_out w p chromium true = Raise e ->
  actions main w = [Enter; Launch p chromium true; Exit p] /\
  exists e',
    result main w = Raise e' /\ carries e' e /\
    (returned (exit_out w p) = true -> e' = e).
Proof.
  intros He Hl. unfold actions, result.
  rewrite (main_run_without_browser w p e He Hl). cbn [fst snd].
  split; [ reflexivity | ].
  destruct (after_finally_carries (A := unit) (Raise e) (exit_out w p) e)
    as (e' & Hr & Hc & Hk).
  { exists e. split; [ reflexivity | apply carries_self ]. }
  exists e'. split; [ exact Hr | split; [ exact Hc | ] ].
  intros Hexit. specialize (Hk Hexit). congruence.
Qed.

Lemma launch_failure_skips_page_and_close_witness :
  enter_out world_no_browser = Ret 1%nat /\
  launch_out world_no_browser 1%nat chromium true
    = Raise (Exn "Error: Executable does not exist") /\
  actions main world_no_browser = [Enter; Launch 1 chromium true; Exit 1] /\
  result main world_no_browser = Raise (Exn "Error: Executable does not exist").
Proof.
  split; [ reflexivity | split; [ reflexivity | ] ].
  destruct (launch_failure_skips_page_and_close world_no_browser 1%nat
              (Exn "Error: Executable does not exist") eq_refl eq_refl)
    as (Ht & e' & Hr & _ & Hsame).
  split; [ exact Ht | ].
  rewrite Hr. f_equal. apply Hsame. reflexivity.
Defined.

(** With the page created, what the main suite prints and writes is what
    [verify_notes_load] prints and writes on that page. *)
Lemma main_observed_with_page (w : World) (p : playwright) (b : browser) (pg : page) :
  enter_out w = Ret p ->
  launch_out w p chromium true = Ret b ->
  new_page_out w b = Ret pg ->
  printed (actions main w) = printed (actions (verify_notes_load pg) w) /\
  files_written w (actions main w)
    = files_written w (actions (verify_notes_load pg) w).
Proof.
  intros He Hl Hn.
  unfold actions at 1 3. rewrite (main_run_with_page w p b pg He Hl Hn).
  cbn [fst]. rewrite !printed_app, !files_written_app. simpl.
  now rewrite !app_nil_r.
Qed.

(** ** Cleanup *)

(** X5.  [browser.close()] is called on a browser exactly when that browser
    was launched by the script and a page was created on it: never before
    the page exists, and always once it does. *)
Theorem close_iff_page_created (w : World) (b : browser) :
  In (Close b) (actions main w) <->
  exists p pg,
    enter_out w = Ret p /\
    launch_out w p chromium true = Ret b /\
    new_page_out w b = Ret pg.
Proof.
  split.
  - unfold actions.
    destruct (acquisition_cases w)
      as [e He | p e He Hl | p b' e He Hl Hn | p b' pg He Hl Hn].
    + rewrite (main_run_without_driver w e He). simpl. intuition discriminate.
    + rewrite (main_run_without_browser w p e He Hl). simpl.
      intuition discriminate.
    + rewrite (main_run_without_page w p b' e He Hl Hn). simpl.
      intuition discriminate.
    + rewrite (main_run_with_page w p b' pg He Hl Hn). cbn [fst].
      intros Hin. apply in_app_or in Hin as [Hin | Hin].
      { simpl in Hin. intuition discriminate. }
      apply in_app_or in Hin as [Hin | Hin].
      { apply verify_notes_load_calls in Hin. intuition discriminate. }
      simpl in Hin. destruct Hin as [Hin | [Hin | [] ] ]; [ | discriminate Hin ].
      injection Hin as <-. now exists p, pg.
  - intros (p & pg & He & Hl & Hn).
    unfold actions. rewrite (main_run_with_page w p b pg He Hl Hn). cbn [fst].
    apply in_or_app; right. apply in_or_app; right. now left.
Qed.

(** X6.  Once the Playwright manager has been entered, its exit is the last
    call of the script in every run, and it is made once: the trace is the
    entry, then calls that are neither an entry nor an exit, then the exit
    on the same Playwright handle. *)
Theorem exit_is_last_call (w : World) (p : playwright) :
  enter_out w = Ret p ->
  exists t,
    actions main w = Enter :: t ++ [Exit p] /\
    forall a, In a t -> a <> Enter /\ forall p', a <> Exit p'.
Proof.
  intros He. unfold actions.
  destruct (acquisition_cases w)
    as [e He' | p' e He' Hl | p' b e He' Hl Hn | p' b pg He' Hl Hn];
    rewrite He in He'; [ discriminate He' | | | ];
    injection He' as <-.
  - rewrite (main_run_without_browser w p e He Hl).
    exists [Launch p chromium true]. split; [ reflexivity | ].
    intros a [<- | []]. split; [ | intros p' ]; discriminate.
  - rewrite (main_run_without_page w p b e He Hl Hn).
    exists [Launch p chromium true; NewPage b]. split; [ reflexivity | ].
    intros a [<- | [<- | []]]; (split; [ | intros p' ]; discriminate).
  - rewrite (main_run_with_page w p b pg He Hl Hn). cbn [fst].
    exists ([Launch p chromium true; NewPage b]
              ++ actions (verify_notes_load pg) w ++ [Close b]).
    split.
    + simpl. f_equal. f_equal. f_equal. now rewrite <- app_assoc.
    + intros a Hin. apply in_app_or in Hin as [Hin | Hin].
      { destruct Hin as [<- | [<- | []]];
          (split; [ | intros p' ]; discriminate). }
      apply in_app_or in Hin as [Hin | Hin].
      * apply verify_notes_load_calls in Hin.
        destruct Hin as [-> | [-> | [-> | [-> | [-> | ->]]]]];
          (split; [ | intros p' ]; discriminate).
      * destruct Hin as [<- | []]. split; [ | intros p' ]; discriminate.
Qed.

Lemma exit_is_last_call_witness :
  enter_out world_server_down = Ret 1%nat /\
  exists t,
    actions main world_server_down = Enter :: t ++ [Exit 1] /\
    forall a, In a t -> a <> Enter /\ forall p', a <> Exit p'.
Proof.
  split; [ reflexivity | ].
  apply (exit_is_last_call world_server_down 1%nat). reflexivity.
Defined.

(** X7.  A verification that went through is still a failed run when
    [browser.close()] raises: the message has been printed, and the script
    ends in the exception of the close (the very same one when the manager's
    exit returns). *)
Theorem close_failure_fails_the_run
    (w : World) (p : playwright) (b : browser) (pg : page) (e : exn) :
  enter_out w = Ret p ->
  launch_out w p chromium true = Ret b ->
  new_page_out w b = Ret pg ->
  returned (result (verify_notes_load pg) w) = true ->
  close_out w b = Raise e ->
  (printed (actions main w) = [ "Onboarding visible" ] \/
   printed (actions main w) = [ "Not on onboarding?" ]) /\
  exists e',
    result main w = Raise e' /\ carries e' e /\
    (returned (exit_out w p) = true -> e' = e).
Proof.
  intros He Hl Hn Hret Hclose. split.
  - destruct (main_observed_with_page w p b pg He Hl Hn) as [-> _].
    rewrite verify_notes_load_printed.
    rewrite verify_notes_load_returned in Hret.
    unfold actions in Hret. rewrite verify_notes_load_run in Hret.
    unfold reaches_check.
    destruct (goto_out w pg app_url) eqn:Hgoto;
      [ | simpl in Hret; rewrite Hgoto in Hret; discriminate Hret ].
    destruct (sleep_out w 2) eqn:Hsleep;
      [ | simpl in Hret; rewrite Hgoto, Hsleep in Hret; discriminate Hret ].
    destruct (screenshot_out w pg screenshot_path) eqn:Hshot;
      [ | simpl in Hret; rewrite Hgoto, Hsleep, Hshot in Hret;
          discriminate Hret ].
    destruct (is_visible_out w pg (get_by_text welcome_text)) as [v | e0] eqn:Hvis;
      [ | simpl in Hret; rewrite Hgoto, Hsleep, Hshot, Hvis in Hret;
          discriminate Hret ].
    destruct v; [ left | right ]; reflexivity.
  - unfold result at 1. rewrite (main_run_with_page w p b pg He Hl Hn).
    cbn [snd]. rewrite Hclose.
    destruct (result (verify_notes_load pg) w) as [u | e0];
      [ | discriminate Hret ].
    cbn [after_finally].
    destruct (after_finally_carries (A := unit) (Raise e) (exit_out w p) e)
      as (e' & Hr & Hc & Hk).
    { exists e. split; [ reflexivity | apply carries_self ]. }
    exists e'. split; [ exact Hr | split; [ exact Hc | ] ].
    intros Hexit. specialize (Hk Hexit). congruence.
Qed.

Lemma close_failure_fails_the_run_witness :
  (enter_out world_close_fails = Ret 1%nat /\
   launch_out world_close_fails 1%nat chromium true = Ret 2%nat /\
   new_page_out world_close_fails 2%nat = Ret 3%nat /\
   returned (result (verify_notes_load 3) world_close_fails) = true /\
   close_out world_close_fails 2%nat = Raise (Exn "TargetClosedError")) /\
  result main world_close_fails = Raise (Exn "TargetClosedError").
Proof.
  split; [ repeat split | ].
  destruct (close_failure_fails_the_run world_close_fails 1%nat 2%nat 3%nat
              (Exn "TargetClosedError") eq_refl eq_refl eq_refl eq_refl eq_refl)
    as (_ & e' & Hr & _ & Hsame).
  rewrite Hr. f_equal. apply Hsame. reflexivity.
Defined.

(** ** Output *)

(** X8.  In every run of the script, failed or not, at most one message is
    printed and it is one of the two fixed ones, and at most one file is
    written and it is the screenshot at its fixed path. *)
Theorem at_most_one_message_and_file (w : World) :
  (printed (actions main w) = [] \/
   printed (actions main w) = [ "Onboarding visible" ] \/
   printed (actions main w) = [ "Not on onboarding?" ]) /\
  (files_written w (actions main w) = [] \/
   files_written w (actions main w)
     = [ "/home/jules/verification/initial_load.png" ]).
Proof.
  destruct (main_printed_and_files w)
    as [ [Hp Hf] | (p & b & pg & _ & _ & _ & Hp & Hf) ].
  - split; left; assumption.
  - rewrite Hp, Hf, verify_notes_load_printed, verify_notes_load_files.
    destruct (reaches_check w pg); [ | split; left; reflexivity ].
    split; [ | right; reflexivity ].
    destruct (is_visible_out w pg (get_by_text welcome_text)) as [ [ | ] | e ];
      [ right; left | right; right | left ]; reflexivity.
Qed.

(** X9.  A message on standard output means that the screenshot is on
    disk: whenever the script has printed anything, the file at
    /home/jules/verification/initial_load.png has been written. *)
Theorem message_implies_screenshot (w : World) :
  printed (actions main w) <> [] ->
  files_written w (actions main w)
    = [ "/home/jules/verification/initial_load.png" ].
Proof.
  destruct (main_printed_and_files w)
    as [ [Hp _] | (p & b & pg & _ & _ & _ & Hp & Hf) ].
  - intros H. now elim H.
  - rewrite Hp, Hf, verify_notes_load_printed, verify_notes_load_files.
    destruct (reaches_check w pg); [ reflexivity | intros H; now elim H ].
Qed.

Lemma message_implies_screenshot_witness :
  printed (actions main (world_up false)) <> [] /\
  files_written (world_up false) (actions main (world_up false))
    = [ "/home/jules/verification/initial_load.png" ].
Proof.
  assert (H : printed (actions main (world_up false)) <> []) by discriminate.
  split; [ exact H | ].
  exact (message_implies_screenshot (world_up false) H).
Defined.

(** X10.  The screenshot file is written exactly in the runs in which the
    three resources were acquired and navigation, the two-second wait and
    the screenshot call returned on the page that was created. *)
Theorem screenshot_written_iff (w : World) :
  files_written w (actions main w)
    = [ "/home/jules/verification/initial_load.png" ] <->
  exists p b pg,
    enter_out w = Ret p /\
    launch_out w p chromium true = Ret b /\
    new_page_out w b = Ret pg /\
    reaches_check w pg = true.
Proof.
  split.
  - destruct (main_printed_and_files w)
      as [ [_ Hf] | (p & b & pg & He & Hl & Hn & _ & Hf) ];
      rewrite Hf; [ discriminate | ].
    rewrite verify_notes_load_files.
    destruct (reaches_check w pg) eqn:Hreach; [ intros _ | discriminate ].
    now exists p, b, pg.
  - intros (p & b & pg & He & Hl & Hn & Hreach).
    destruct (main_observed_with_page w p b pg He Hl Hn) as [_ ->].
    now rewrite verify_notes_load_files, Hreach.
Qed.

(** X11.  A failure of [print] is not caught either: when the message
    cannot be written, the exception leaves [verify_notes_load] as it is,
    [browser.close()] is still called, and the script ends in an exception
    that carries it. *)
Theorem print_failure_propagates
    (w : World) (p : playwright) (b : browser) (pg : page) (v : bool) (e : exn) :
  enter_out w = Ret p ->
  launch_out w p chromium true = Ret b ->
  new_page_out w b = Ret pg ->
  reaches_check w pg = true ->
  is_visible_out w pg (ByText "Welcome to Pinn") = Ret v ->
  print_out w (if v then "Onboarding visible" else "Not on onboarding?") = Raise e ->
  result (verify_notes_load pg) w = Raise e /\
  In (Close b) (actions main w) /\
  exists e',
    result main w = Raise e' /\ carries e' e /\
    (returned (close_out w b) = true ->
     returned (exit_out w p) = true -> e' = e).
Proof.
  intros He Hl Hn Hreach Hvis Hprint.
  assert (Hres : result (verify_notes_load pg) w = Raise e).
  { unfold result. rewrite (verify_notes_load_run_checked w pg Hreach).
    change (get_by_text welcome_text) with (ByText "Welcome to Pinn").
    rewrite Hvis. cbn [snd]. exact Hprint. }
  split; [ exact Hres | split ].
  - unfold actions. rewrite (main_run_with_page w p b pg He Hl Hn). cbn [fst].
    apply in_or_app; right. apply in_or_app; right. now left.
  - unfold result at 1. rewrite (main_run_with_page w p b pg He Hl Hn).
    cbn [snd]. rewrite Hres.
    destruct (after_finally_carries (A := unit) (Raise e) (close_out w b) e)
      as (e1 & H1 & C1 & K1).
    { exists e. split; [ reflexivity | apply carries_self ]. }
    destruct (after_finally_carries (A := unit)
                (after_finally (Raise e) (close_out w b))
                (exit_out w p) e) as (e2 & H2 & C2 & K2).
    { exists e1. now split. }
    exists e2. split; [ exact H2 | split; [ exact C2 | ] ].
    intros Hclose Hexit.
    specialize (K1 Hclose). specialize (K2 Hexit). congruence.
Qed.

Lemma print_failure_propagates_witness :
  (enter_out world_stdout_closed = Ret 1%nat /\
   launch_out world_stdout_closed 1%nat chromium true = Ret 2%nat /\
   new_page_out world_stdout_closed 2%nat = Ret 3%nat /\
   reaches_check world_stdout_closed 3 = true /\
   is_visible_out world_stdout_closed 3 (ByText "Welcome to Pinn") = Ret true /\
   print_out world_stdout_closed "Onboarding visible" = Raise (Exn "BrokenPipeError")) /\
  result (verify_notes_load 3) world_stdout_closed = Raise (Exn "BrokenPipeError") /\
  In (Close 2) (actions main world_stdout_closed) /\
  result main world_stdout_closed = Raise (Exn "BrokenPipeError").
Proof.
  split; [ repeat split | ].
  destruct (print_failure_propagates world_stdout_closed 1%nat 2%nat 3%nat true
              (Exn "BrokenPipeError")
              eq_refl eq_refl eq_refl eq_refl eq_refl eq_refl)
    as (Hv & Hc & e' & Hr & _ & Hsame).
  split; [ exact Hv | split; [ exact Hc | ] ].
  rewrite Hr. f_equal. apply Hsame; reflexivity.
Defined.

(** ** Navigation *)

(** X12.  The only navigation the script ever makes is to
    http://localhost:5173, and it makes it on the page that the script
    itself opened on the browser it launched headless. *)
Theorem navigation_only_on_created_page (w : World) (pg : page) (url : string) :
  In (Goto pg url) (actions main w) ->
  url = "http://localhost:5173" /\
  exists p b,
    enter_out w = Ret p /\
    launch_out w p chromium true = Ret b /\
    new_page_out w b = Ret pg /\
    In (Launch p chromium true) (actions main w).
Proof.
  unfold actions.
  destruct (acquisition_cases w)
    as [e He | p e He Hl | p b e He Hl Hn | p b pg' He Hl Hn].
  - rewrite (main_run_without_driver w e He). simpl. intuition discriminate.
  - rewrite (main_run_without_browser w p e He Hl). simpl.
    intuition discriminate.
  - rewrite (main_run_without_page w p b e He Hl Hn). simpl.
    intuition discriminate.
  - rewrite (main_run_with_page w p b pg' He Hl Hn). cbn [fst].
    intros Hin. apply in_app_or in Hin as [Hin | Hin].
    { simpl in Hin. intuition discriminate. }
    apply in_app_or in Hin as [Hin | Hin].
    + apply verify_notes_load_calls in Hin.
      destruct Hin as [Hin | [Hin | [Hin | [Hin | [Hin | Hin]]]]];
        try discriminate Hin.
      injection Hin as -> ->. split; [ reflexivity | ].
      exists p, b. do 3 (split; [ assumption | ]).
      right. now left.
    + simpl in Hin. intuition discriminate.
Qed.

Lemma navigation_only_on_created_page_witness :
  In (Goto 3 "http://localhost:5173") (actions main world_server_down) /\
  exists p b,
    enter_out world_server_down = Ret p /\
    launch_out world_server_down p chromium true = Ret b /\
    new_page_out world_server_down b = Ret 3%nat /\
    In (Launch p chromium true) (actions main world_server_down).
Proof.
  assert (H : In (Goto 3 "http://localhost:5173") (actions main world_server_down))
    by (simpl; tauto).
  split; [ exact H | ].
  exact (proj2 (navigation_only_on_created_page world_server_down 3%nat _ H)).
Defined.
